(** * California Housing prediction front-end (app.py)

    A shallow embedding of the Flask application
    [Simple Linear Regression /Models/California Housing/app.py]:
    the module-level load of the model artifact, the two view functions
    [home] and [predict], and the request loop that drives them.

    Python floats are IEEE binary64 numbers, here the primitive [float];
    the form is werkzeug's multi-dict (a dict from field names to the
    list of submitted values); keyword arguments of [render_template]
    are a finite map from names to values. *)

From Stdlib Require Import ZArith Floats Ascii String.
From stdpp Require Import base option strings list gmap pretty.

Local Open Scope string_scope.

(** ** Values, exceptions and outcomes *)

(** The Python values that reach a template context. *)
Inductive value : Type :=
| VFloat (x : float)
| VStr (s : string).

(** Raised objects.  [OtherException] stands for any further instance of
    [Exception] that the predictor raises, [NonException] for a raised
    object outside the [Exception] hierarchy ([SystemExit],
    [KeyboardInterrupt], [GeneratorExit]); both carry the class name and
    the text that [str] gives. *)
Inductive exn : Type :=
| ValueError (msg : string)
| IndexError (msg : string)
| BadRequestKeyError (key : string)
| OtherException (cls text : string)
| NonException (cls text : string).

(** [isinstance(e, Exception)] *)
Definition isinstance_Exception (e : exn) : bool :=
  match e with
  | NonException _ _ => false
  | _ => true
  end.

(** werkzeug's text for a [BadRequestKeyError] that is not shown in detail:
    ["{code} {name}: {description}"]. *)
Definition bad_request_text : string :=
  "400 Bad Request: The browser (or proxy) sent a request that this server could not understand.".

(** [str(e)] *)
Definition str (e : exn) : string :=
  match e with
  | ValueError msg => msg
  | IndexError msg => msg
  | BadRequestKeyError _ => bad_request_text
  | OtherException _ text => text
  | NonException _ text => text
  end.

(** The result of evaluating an expression: a value or a raised object. *)
Inductive outcome (A : Type) : Type :=
| Return (a : A)
| Raise (e : exn).
Arguments Return {A} a.
Arguments Raise {A} e.

Definition outcome_bind {A B : Type} (f : A → outcome B) (o : outcome A) : outcome B :=
  match o with
  | Return a => f a
  | Raise e => Raise e
  end.

#[export] Instance outcome_ret : MRet outcome := @Return.
#[export] Instance outcome_mbind : MBind outcome := @outcome_bind.

(** ** The predictor and the process-wide state *)

(** What the unpickled object offers to this program: a [predict] method
    from a two-dimensional array of floats to a one-dimensional one, which
    may raise.  The result is taken to be a one-dimensional array of
    floats, as a regression fitted on a one-dimensional target gives; an
    object whose [predict] returns anything else is outside this model. *)
Module Predictor.
Record t : Type := Build { predict : list (list float) → outcome (list float) }.
End Predictor.

(** Module globals that are bound at run time: line 6, [model]. *)
Record globals : Type := Globals { model : Predictor.t }.

(** Code inside a view function: it runs against the module globals and
    either returns or raises. *)
Definition M (A : Type) : Type := globals → outcome A * globals.

Definition M_ret {A : Type} (a : A) : M A := λ g, (Return a, g).

Definition M_bind {A B : Type} (f : A → M B) (c : M A) : M B :=
  λ g, match c g with
       | (Return a, g') => f a g'
       | (Raise e, g') => (Raise e, g')
       end.

#[export] Instance M_mret : MRet M := @M_ret.
#[export] Instance M_mbind : MBind M := @M_bind.

(** An expression that does not touch the globals. *)
Definition lift {A : Type} (o : outcome A) : M A := λ g, (o, g).

(** Reading the global name [model]. *)
Definition read_model : M Predictor.t := λ g, (Return (model g), g).

(** [try: body  except Exception as e: handler(e)] *)
Definition try_except_Exception {A : Type} (body : M A) (handler : exn → M A) : M A :=
  λ g, match body g with
       | (Return a, g') => (Return a, g')
       | (Raise e, g') =>
           if isinstance_Exception e then handler e g' else (Raise e, g')
       end.

(** ** Library calls *)

(** The two builtins the handler relies on: [float] on a [str] argument
    ([None] where Python raises) and [repr] of a [str]. *)
Class Builtins : Type := {
  float_of_str : string → option float;
  repr : string → string
}.

(** [float(s)] for a string [s] *)
Definition py_float `{Builtins} (s : string) : outcome float :=
  match float_of_str s with
  | Some x => Return x
  | None => Raise (ValueError ("could not convert string to float: " +:+ repr s))
  end.

(** [request.form]: werkzeug's [ImmutableMultiDict]. *)
Abbreviation Form := (gmap string (list string)).

(** [form[key]]: the first value submitted under [key]. *)
Definition form_getitem (key : string) (form : Form) : outcome string :=
  match form !! key with
  | Some (v :: _) => Return v
  | _ => Raise (BadRequestKeyError key)
  end.

(** [np.array(rows)] for a literal nested list of floats. *)
Definition np_array (rows : list (list float)) : list (list float) := rows.

(** [a[i]] on a one-dimensional array, for [i >= 0]. *)
Definition ndarray_getitem (a : list float) (i : nat) : outcome float :=
  match a !! i with
  | Some x => Return x
  | None =>
      Raise (IndexError ("index " +:+ pretty i +:+ " is out of bounds for axis 0 with size "
                         +:+ pretty (length a)))
  end.

(** What a view function returns: the template it rendered and the
    context it rendered it with. *)
Record View : Type := MkView {
  template : string;
  context : gmap string value
}.

(** [render_template(name, **ctx)] *)
Definition render_template (name : string) (ctx : gmap string value) : M View :=
  mret (MkView name ctx).

(** ** The view functions *)

(** Lines 8-10. *)
Definition home : M View :=
  render_template "index.html" ∅.

(** Lines 15-17, the body of the [try]. *)
Definition predict_try `{Builtins} (form : Form) : M View :=
  income ← lift (s ← form_getitem "income" form; py_float s);
  m ← read_model;
  prediction ← lift (ys ← Predictor.predict m (np_array [[income]]); ndarray_getitem ys 0);
  render_template "index.html"
    (<["prediction" := VFloat prediction]> (<["income" := VFloat income]> ∅)).

(** Lines 12-19. *)
Definition predict `{Builtins} (form : Form) : M View :=
  try_except_Exception (predict_try form)
    (λ e, render_template "index.html" (<["error" := VStr (str e)]> ∅)).

(** ** The application: routing, the request loop and start-up *)

(** The requests the two routes accept: [GET /] (line 8) and
    [POST /predict] with its form data (line 12). *)
Inductive Request : Type :=
| GET_root
| POST_predict (form : Form).

(** Flask's [dispatch_request]: the view function of the matching rule. *)
Definition dispatch_request `{Builtins} (r : Request) : M View :=
  match r with
  | GET_root => home
  | POST_predict form => predict form
  end.

Record Response : Type := MkResponse {
  status : Z;
  body : View
}.

(** Flask's [make_response] for a view that returned a rendered page. *)
Definition make_response (v : View) : Response := MkResponse 200 v.

Definition full_dispatch_request `{Builtins} (r : Request) : M Response :=
  v ← dispatch_request r; mret (make_response v).

(** The server: requests are handled one after the other against the
    module globals; each yields a response or the object its view let
    escape. *)
Fixpoint serve `{Builtins} (reqs : list Request) (g : globals)
  : list (outcome Response) * globals :=
  match reqs with
  | [] => ([], g)
  | r :: rest =>
      let '(o, g1) := full_dispatch_request r g in
      let '(os, g2) := serve rest g1 in
      (o :: os, g2)
  end.

(** Executing the module as a script: line 6 binds [model] to what
    [joblib.load] gives for the artifact, then (line 22) the server runs.
    [joblib_load] is the loader together with the files it sees. *)
Definition load_module (joblib_load : string → outcome Predictor.t) : outcome globals :=
  m ← joblib_load "slr_model.pkl"; mret (Globals m).

Definition run `{Builtins} (joblib_load : string → outcome Predictor.t)
    (reqs : list Request) : outcome (list (outcome Response) * globals) :=
  g ← load_module joblib_load; mret (serve reqs g).

(** ** Methods of the two URL rules

    [@app.route('/')] (line 8) registers its rule for GET, the default;
    [@app.route('/predict', methods=['POST'])] (line 12) for POST.  A
    request that matches a rule with another method is answered by the
    framework with 405 and its view function is not called.  Of the
    HTTP methods, the two that a browser sends for a page and for a
    form are modelled. *)
Inductive Method : Type := GET | POST.

#[export] Instance Method_eq_dec : EqDecision Method.
Proof. solve_decision. Defined.

(** The URL rule a request path matched. *)
Inductive Rule : Type := rule_home | rule_predict.

Definition rule_methods (r : Rule) : list Method :=
  match r with
  | rule_home => [GET]
  | rule_predict => [POST]
  end.

Record HttpRequest : Type := MkHttpRequest {
  http_rule : Rule;
  http_method : Method;
  http_form : Form
}.

(** What the application answers: a rendered page, or the framework's
    405 with the methods the rule allows. *)
Inductive Reply : Type :=
| Rendered (resp : Response)
| MethodNotAllowed (allowed : list Method).

Definition view_request (q : HttpRequest) : Request :=
  match http_rule q with
  | rule_home => GET_root
  | rule_predict => POST_predict (http_form q)
  end.

Definition handle_request `{Builtins} (q : HttpRequest) : M Reply :=
  if bool_decide (http_method q ∈ rule_methods (http_rule q)) then
    resp ← full_dispatch_request (view_request q); mret (Rendered resp)
  else mret (MethodNotAllowed (rule_methods (http_rule q))).

(** ** CPython's builtins on ASCII text

    [float] and [repr] as CPython computes them, for strings of ASCII
    characters (bytes above 127 are taken as characters that are neither
    digits nor spaces, and [repr] leaves them as they are). *)
Module CPython.

Definition code (c : ascii) : Z := Z.of_N (Ascii.N_of_ascii c).

(** [Py_ISSPACE]: space, and tab to carriage return. *)
Definition is_space (c : ascii) : bool :=
  ((9 <=? code c) && (code c <=? 13) || (code c =? 32))%Z.

Definition is_digit (c : ascii) : bool :=
  ((48 <=? code c) && (code c <=? 57))%Z.

(** ASCII lower case, for the comparison with [inf] and [nan]. *)
Definition lower (c : ascii) : ascii :=
  if ((65 <=? code c) && (code c <=? 90))%Z
  then Ascii.ascii_of_N (Z.to_N (code c + 32)) else c.

Fixpoint take_while (p : ascii → bool) (s : list ascii) : list ascii :=
  match s with
  | c :: r => if p c then c :: take_while p r else []
  | [] => []
  end.

Fixpoint drop_while (p : ascii → bool) (s : list ascii) : list ascii :=
  match s with
  | c :: r => if p c then drop_while p r else s
  | [] => []
  end.

(** Underscores are dropped; each has to stand between two digits. *)
Fixpoint drop_underscores (prev : option ascii) (s : list ascii) : option (list ascii) :=
  match s with
  | [] => if bool_decide (prev = Some "_"%char) then None else Some []
  | c :: rest =>
      if bool_decide (c = "_"%char) then
        if from_option is_digit false prev then drop_underscores (Some c) rest else None
      else if bool_decide (prev = Some "_"%char) && negb (is_digit c) then None
      else (c ::.) <$> drop_underscores (Some c) rest
  end.

Definition strip (s : list ascii) : list ascii :=
  reverse (drop_while is_space (reverse (drop_while is_space s))).

(** An optional sign: [true] for a minus. *)
Definition take_sign (s : list ascii) : bool * list ascii :=
  match s with
  | "-"%char :: r => (true, r)
  | "+"%char :: r => (false, r)
  | _ => (false, s)
  end.

Definition digits_value (ds : list ascii) : Z :=
  foldl (λ acc c, 10 * acc + (code c - 48))%Z 0%Z ds.

(** The decimal grammar: digits with an optional point, at least one
    digit, then an optional exponent with at least one digit; the whole
    text has to be used.  The result is the digit string read as an
    integer, and the power of ten that scales it. *)
Definition parse_decimal (s : list ascii) : option (Z * Z) :=
  let ip := take_while is_digit s in
  let r1 := drop_while is_digit s in
  let '(fp, r2) :=
    match r1 with
    | "."%char :: r =>
        (take_while is_digit r, drop_while is_digit r)
    | _ => ([], r1)
    end in
  if bool_decide (ip = [] ∧ fp = []) then None else
  let mant := digits_value (ip ++ fp) in
  let scale := (- Z.of_nat (length fp))%Z in
  match r2 with
  | [] => Some (mant, scale)
  | c :: r =>
      if bool_decide (lower c = "e"%char) then
        let '(neg, r') := take_sign r in
        let ed := take_while is_digit r' in
        if bool_decide (ed = []) then None
        else if bool_decide (drop_while is_digit r' = []) then
          Some (mant, (scale + (if neg then - digits_value ed else digits_value ed))%Z)
        else None
      else None
  end.

(** The binary64 number nearest to [mant * 10 ^ scale] (ties to even),
    for [mant >= 0], with the given sign.  A negative scale is a
    division: the quotient is taken with 64 bits or more and a sticky
    last bit, then rounded.  Numbers that are plainly out of range
    (at least [10 ^ 311], or below [2 ^ -1080]) are settled without
    computing the power of ten. *)
Definition round_decimal (neg : bool) (mant scale : Z) : float :=
  let signed (m : Z) := if neg then (- m)%Z else m in
  if (mant =? 0)%Z then (if neg then neg_zero else PrimFloat.zero)
  else if (310 <? scale)%Z then (if neg then neg_infinity else infinity)
  else if (Z.log2 mant + 1 + 3 * scale <? -1080)%Z then (if neg then neg_zero else PrimFloat.zero)
  else if (0 <=? scale)%Z then
    SF2Prim (binary_normalize prec emax (signed (mant * 10 ^ scale)%Z) 0 neg)
  else
    let den := (10 ^ (- scale))%Z in
    let k := Z.max 0 (Z.log2 den - Z.log2 mant + 66) in
    let num := (mant * 2 ^ k)%Z in
    let q := (num / den)%Z in
    let sticky := if (num mod den =? 0)%Z then 0%Z else 1%Z in
    SF2Prim (binary_normalize prec emax (signed (2 * q + sticky)%Z) (- k - 1) neg).

Definition parse_inf_or_nan (neg : bool) (s : list ascii) : option float :=
  let t := string_of_list_ascii (lower <$> s) in
  if bool_decide (t = "inf" ∨ t = "infinity") then
    Some (if neg then neg_infinity else infinity)
  else if bool_decide (t = "nan") then Some nan
  else None.

(** [float(s)] *)
Definition float_of_str (s : string) : option float :=
  t ← drop_underscores None (list_ascii_of_string s);
  let '(neg, r) := take_sign (strip t) in
  match parse_decimal r with
  | Some (mant, scale) => Some (round_decimal neg mant scale)
  | None => parse_inf_or_nan neg r
  end.

Definition hex_digit (n : Z) : ascii :=
  Ascii.ascii_of_N (Z.to_N (if (n <? 10)%Z then 48 + n else 87 + n)).

Definition double_quote : ascii := Ascii.ascii_of_N 34.

(** One character of [repr], inside quotes of kind [quote]. *)
Definition repr_char (quote : ascii) (c : ascii) : list ascii :=
  if bool_decide (c = quote ∨ c = "\"%char) then ["\"%char; c]
  else if (code c =? 9)%Z then ["\"%char; "t"%char]
  else if (code c =? 10)%Z then ["\"%char; "n"%char]
  else if (code c =? 13)%Z then ["\"%char; "r"%char]
  else if ((code c <? 32) || (code c =? 127))%Z then
    ["\"%char; "x"%char; hex_digit (code c / 16); hex_digit (code c mod 16)]
  else [c].

(** [repr(s)]: single quotes, unless [s] has a single quote and no
    double quote. *)
Definition repr (s : string) : string :=
  let cs := list_ascii_of_string s in
  let quote :=
    if bool_decide ("'"%char ∈ cs ∧ double_quote ∉ cs) then double_quote else "'"%char in
  string_of_list_ascii (quote :: (cs ≫= repr_char quote) ++ [quote]).

#[export] Instance builtins : Builtins := Build_Builtins float_of_str repr.

End CPython.

(** ** Sample predictors and loaders

    The bundled artifact is not part of the sources; these stand for
    objects that [joblib.load] may return, and for what it may do. *)
Module Samples.

(** A fitted one-feature linear regression in the manner of
    scikit-learn: the input is validated (no NaN, no infinity, one
    column), then each row yields [coef * x + intercept]. *)
Definition linear_regression (coef intercept : float) : Predictor.t :=
  Predictor.Build (λ X,
    if existsb (existsb is_nan) X then
      Raise (ValueError "Input X contains NaN.")
    else if existsb (existsb is_infinity) X then
      Raise (ValueError "Input X contains infinity or a value too large for dtype('float64').")
    else
      mapM (λ row, match row with
                   | [x] => Return (coef * x + intercept)%float
                   | _ => Raise (ValueError "X has the wrong number of features.")
                   end) X).

(** A predictor that gives back its input, flattened. *)
Definition echo : Predictor.t := Predictor.Build (λ X, Return (concat X)).

(** A predictor whose [predict] raises [e] on every input. *)
Definition raising (e : exn) : Predictor.t := Predictor.Build (λ _, Raise e).

(** A predictor whose [predict] returns an empty array. *)
Definition silent : Predictor.t := Predictor.Build (λ _, Return []).

(** A loader that finds the artifact and unpickles it to [m]. *)
Definition load_ok (m : Predictor.t) : string → outcome Predictor.t :=
  λ path, if bool_decide (path = "slr_model.pkl") then Return m
          else Raise (OtherException "FileNotFoundError" "[Errno 2] No such file or directory").

(** A loader in a directory without the artifact. *)
Definition load_missing : string → outcome Predictor.t :=
  λ _, Raise (OtherException "FileNotFoundError" "[Errno 2] No such file or directory").

(** A form with the single field [income]. *)
Definition income_form (s : string) : Form := {["income" := [s]]}.

(** Globals after a load that gave a validating linear regression. *)
Definition housing : globals := Globals (linear_regression 2 3).

End Samples.

(** ** Pages and the shape of a handled request *)

(** The page the error branch (line 19) renders for [e]. *)
Definition error_view (e : exn) : View :=
  MkView "index.html" (<["error" := VStr (str e)]> ∅).

(** The page line 17 renders. *)
Definition result_view (prediction income : float) : View :=
  MkView "index.html"
    (<["prediction" := VFloat prediction]> (<["income" := VFloat income]> ∅)).

(** The page of [GET /]. *)
Definition form_view : View := MkView "index.html" ∅.

(** What [except Exception] makes of the outcome of the [try] block. *)
Definition settle (o : outcome View) : outcome View :=
  match o with
  | Return v => Return v
  | Raise e => if isinstance_Exception e then Return (error_view e) else Raise e
  end.

#[export] Instance outcome_fmap : FMap outcome :=
  λ A B f o, match o with Return a => Return (f a) | Raise e => Raise e end.

(** * Properties *)

(** Unfolding of the two monads and of the statements of the views. *)
Ltac unfold_views :=
  unfold full_dispatch_request, dispatch_request, predict, predict_try, home,
    try_except_Exception, render_template, read_model, lift, np_array,
    mbind, mret, M_mbind, M_mret, M_bind, M_ret, outcome_mbind, outcome_ret, outcome_bind.

Section Views.
Context `{B : Builtins}.

(** [predict] never writes the globals, and its result is the settled
    outcome of lines 15-17 read as plain expressions. *)
Lemma predict_unfold (form : Form) (g : globals) :
  predict form g =
    (settle (s ← form_getitem "income" form;
             income ← py_float s;
             ys ← Predictor.predict (model g) [[income]];
             prediction ← ndarray_getitem ys 0;
             Return (result_view prediction income)), g).
Proof.
  unfold_views. unfold settle, error_view, result_view.
  destruct (form_getitem "income" form) as [s|e]; simpl; [|by destruct (isinstance_Exception e)].
  destruct (py_float s) as [v|e]; simpl; [|by destruct (isinstance_Exception e)].
  destruct (Predictor.predict (model g) [[v]]) as [ys|e]; simpl;
    [|by destruct (isinstance_Exception e)].
  destruct (ndarray_getitem ys 0) as [p|e]; simpl; [done|by destruct (isinstance_Exception e)].
Qed.

Lemma home_unfold (g : globals) : home g = (Return form_view, g).
Proof. reflexivity. Qed.

Lemma full_dispatch_unfold (r : Request) (g : globals) :
  full_dispatch_request r g =
    (make_response <$> (dispatch_request r g).1, (dispatch_request r g).2).
Proof.
  unfold full_dispatch_request, mbind, mret, M_mbind, M_mret, M_bind, M_ret.
  by destruct (dispatch_request r g) as [[v|e] g'].
Qed.

(** No view function writes the globals. *)
Lemma dispatch_frame (r : Request) (g : globals) : (dispatch_request r g).2 = g.
Proof. destruct r as [|form]; simpl; [done|by rewrite predict_unfold]. Qed.

Lemma full_dispatch_frame (r : Request) (g : globals) :
  (full_dispatch_request r g).2 = g.
Proof. rewrite full_dispatch_unfold. apply dispatch_frame. Qed.

(** The server answers each request as if it were the only one. *)
Lemma serve_pointwise (reqs : list Request) (g : globals) :
  serve reqs g = ((λ r, (full_dispatch_request r g).1) <$> reqs, g).
Proof.
  induction reqs as [|r rest IH]; simpl; [done|].
  pose proof (full_dispatch_frame r g) as Hf.
  destruct (full_dispatch_request r g) as [o g1]; simpl in *; subst g1.
  by rewrite IH.
Qed.

Lemma post_predict_unfold (form : Form) (g : globals) :
  full_dispatch_request (POST_predict form) g =
    (make_response <$> (predict form g).1, g).
Proof. rewrite full_dispatch_unfold. simpl. by rewrite predict_unfold. Qed.

End Views.

Section Claims.
Context `{B : Builtins}.

(** C1 (as amended): when the [income] field parses as the float [v]
    and the predictor returns an array with first element [p] for
    [[v]], the response to POST /predict is the 200 form view with
    [prediction = p] and [income = v] and without an [error]. *)
Theorem predict_success (form : Form) (g : globals) (s : string) (v p : float)
    (ys : list float) :
  form_getitem "income" form = Return s →
  float_of_str s = Some v →
  Predictor.predict (model g) [[v]] = Return (p :: ys) →
  ∃ resp : Response,
    full_dispatch_request (POST_predict form) g = (Return resp, g) ∧
    status resp = 200%Z ∧
    template (body resp) = "index.html" ∧
    context (body resp) !! "prediction" = Some (VFloat p) ∧
    context (body resp) !! "income" = Some (VFloat v) ∧
    context (body resp) !! "error" = None.
Proof.
  intros Hs Hv Hp. rewrite post_predict_unfold, predict_unfold.
  rewrite Hs. simpl. unfold py_float. rewrite Hv. simpl. rewrite Hp. simpl.
  eexists. split; [reflexivity|]. by simpl.
Qed.

(** C2: when the [income] field does not parse as a float, the
    response to POST /predict is the 200 form view with a non-empty
    [error] string and without a [prediction]. *)
Theorem predict_unparsable (form : Form) (g : globals) (s : string) :
  form_getitem "income" form = Return s →
  float_of_str s = None →
  ∃ (resp : Response) (msg : string),
    full_dispatch_request (POST_predict form) g = (Return resp, g) ∧
    status resp = 200%Z ∧
    template (body resp) = "index.html" ∧
    context (body resp) !! "error" = Some (VStr msg) ∧
    msg ≠ "" ∧
    context (body resp) !! "prediction" = None.
Proof.
  intros Hs Hv. rewrite post_predict_unfold, predict_unfold.
  rewrite Hs. simpl. unfold py_float. rewrite Hv. simpl.
  eexists _, _. split; [reflexivity|]. by simpl.
Qed.

(** C3 (as amended): when the [income] field fails to parse, or parses
    and the predictor then raises an instance of [Exception], the
    handler does not let the exception escape.  The response is the 200
    form view whose context is just the error message [msg]: for a parse
    failure the text of the [ValueError] that names the submitted input,
    for the predictor the text [str e] of what it raised.  The server
    answers the requests that follow as it would have without this one. *)
Theorem predict_failure_is_caught (form : Form) (g : globals) (rest : list Request)
    (msg : string) :
  (∃ s, form_getitem "income" form = Return s ∧ float_of_str s = None ∧
        msg = "could not convert string to float: " +:+ repr s) ∨
  (∃ s v e, form_getitem "income" form = Return s ∧ float_of_str s = Some v ∧
            Predictor.predict (model g) [[v]] = Raise e ∧
            isinstance_Exception e = true ∧
            msg = str e) →
  full_dispatch_request (POST_predict form) g
  = (Return (MkResponse 200 (MkView "index.html" {["error" := VStr msg]})), g) ∧
  serve (POST_predict form :: rest) g
  = (Return (MkResponse 200 (MkView "index.html" {["error" := VStr msg]}))
       :: (serve rest g).1, g).
Proof.
  intros H.
  assert ((predict form g).1 = Return (MkView "index.html" {["error" := VStr msg]})) as Hv.
  { rewrite predict_unfold. unfold settle, error_view.
    destruct H as [(s & Hs & Hv & ->)|(s & v & e & Hs & Hv & Hp & He & ->)];
      rewrite Hs; simpl; unfold py_float; rewrite Hv; simpl;
      [by rewrite insert_empty|].
    rewrite Hp. simpl. by rewrite He, insert_empty. }
  rewrite !serve_pointwise, post_predict_unfold, Hv. simpl.
  by rewrite post_predict_unfold, Hv.
Qed.

(** C4: a POST /predict whose form has no [income] field is answered
    on the error path, like a field that fails to parse: the 200 form
    view with an [error] message and nothing else in its context. *)
Theorem predict_missing_income (form : Form) (g : globals) :
  form !! "income" = None →
  ∃ (resp : Response) (msg : string),
    full_dispatch_request (POST_predict form) g = (Return resp, g) ∧
    status resp = 200%Z ∧
    template (body resp) = "index.html" ∧
    context (body resp) = {["error" := VStr msg]} ∧
    msg ≠ "".
Proof.
  intros Hm. rewrite post_predict_unfold, predict_unfold.
  unfold form_getitem. rewrite Hm. simpl.
  eexists _, _. split; [reflexivity|]. simpl. by rewrite insert_empty.
Qed.

(** C5: after any sequence of earlier requests, GET / is answered with
    the bare form view (empty context: no prediction, no error), and
    asking again gives the same answer. *)
Theorem home_after_any_requests (prior : list Request) (g : globals) :
  ∃ outs : list (outcome Response),
    length outs = length prior ∧
    serve (prior ++ [GET_root; GET_root])%list g =
      ((outs ++ [Return (MkResponse 200 (MkView "index.html" ∅));
                 Return (MkResponse 200 (MkView "index.html" ∅))])%list, g) ∧
    context (MkView "index.html" ∅) !! "prediction" = None ∧
    context (MkView "index.html" ∅) !! "error" = None.
Proof.
  exists ((λ r, (full_dispatch_request r g).1) <$> prior).
  rewrite serve_pointwise, fmap_app, length_fmap. done.
Qed.

(** C6: when loading the artifact raises, running the module ends with
    that exception: no globals are bound and no request is answered. *)
Theorem load_failure_is_fatal (joblib_load : string → outcome Predictor.t)
    (e : exn) (reqs : list Request) :
  joblib_load "slr_model.pkl" = Raise e →
  load_module joblib_load = Raise e ∧ run joblib_load reqs = Raise e.
Proof.
  intros He. unfold run, load_module, mbind, outcome_mbind, outcome_bind.
  by rewrite He.
Qed.

(** C7: for every float [v] that the [income] field parses to, with no
    condition on [v], the handler calls the predictor on [[v]], and its
    answer is made of [v] and of what the predictor gives there: the
    result view, or the error view of what was raised. *)
Theorem predict_forwards_income (form : Form) (g : globals) (s : string) (v : float) :
  form_getitem "income" form = Return s →
  float_of_str s = Some v →
  predict form g =
    (match Predictor.predict (model g) [[v]] with
     | Return (p :: _) =>
         Return (MkView "index.html"
                   (<["prediction" := VFloat p]> (<["income" := VFloat v]> ∅)))
     | Return [] =>
         Return (MkView "index.html"
                   (<["error" := VStr "index 0 is out of bounds for axis 0 with size 0"]> ∅))
     | Raise e =>
         if isinstance_Exception e
         then Return (MkView "index.html" (<["error" := VStr (str e)]> ∅))
         else Raise e
     end, g).
Proof.
  intros Hs Hv. rewrite predict_unfold, Hs. simpl. unfold py_float. rewrite Hv. simpl.
  destruct (Predictor.predict (model g) [[v]]) as [[|p ys]|e]; done.
Qed.

(** C8: the global [model] is bound once, by the load at start-up, and
    no request rebinds it: each request leaves the globals as they
    were, so a run answers every request against the loaded predictor
    and as if it were the only request. *)
Theorem model_is_never_rebound (joblib_load : string → outcome Predictor.t)
    (reqs : list Request) (r : Request) (g : globals) :
  (full_dispatch_request r g).2 = g ∧
  serve reqs g = ((λ r, (full_dispatch_request r g).1) <$> reqs, g) ∧
  run joblib_load reqs =
    match joblib_load "slr_model.pkl" with
    | Return m => Return ((λ r, (full_dispatch_request r (Globals m)).1) <$> reqs, Globals m)
    | Raise e => Raise e
    end.
Proof.
  split; [apply full_dispatch_frame|]. split; [apply serve_pointwise|].
  unfold run, load_module, mbind, mret, outcome_mbind, outcome_ret, outcome_bind.
  destruct (joblib_load "slr_model.pkl") as [m|e]; [|done].
  by rewrite serve_pointwise.
Qed.

(** C9: when the [income] field parses and the predictor then raises an
    instance of [Exception], the context of the response holds the
    error text and nothing else: neither the parsed income nor a
    prediction. *)
Theorem predict_failure_shows_error_only (form : Form) (g : globals)
    (s : string) (v : float) (e : exn) :
  form_getitem "income" form = Return s →
  float_of_str s = Some v →
  Predictor.predict (model g) [[v]] = Raise e →
  isinstance_Exception e = true →
  ∃ resp : Response,
    full_dispatch_request (POST_predict form) g = (Return resp, g) ∧
    context (body resp) = {["error" := VStr (str e)]} ∧
    context (body resp) !! "income" = None ∧
    context (body resp) !! "prediction" = None.
Proof.
  intros Hs Hv Hp He. rewrite post_predict_unfold, predict_unfold, Hs. simpl.
  unfold py_float. rewrite Hv. simpl. rewrite Hp. simpl. rewrite He.
  eexists. split; [reflexivity|]. simpl. by rewrite insert_empty.
Qed.

(** C10: two POST /predict requests whose forms agree on the [income]
    field get the same response, whatever their other fields. *)
Theorem predict_reads_income_only (f1 f2 : Form) (g : globals) :
  f1 !! "income" = f2 !! "income" →
  full_dispatch_request (POST_predict f1) g = full_dispatch_request (POST_predict f2) g.
Proof.
  intros Heq. rewrite !post_predict_unfold, !predict_unfold.
  unfold form_getitem. by rewrite Heq.
Qed.

End Claims.

(** * Instances on concrete requests

    The theorems above, applied with CPython's builtins to sample forms
    and predictors. *)

(** C1 as first stated fails: the text [nan] parses as a float, and a
    predictor that validates its input raises on it; the response then
    carries the error and no prediction. *)
Lemma predict_nan_has_no_prediction :
  form_getitem "income" (Samples.income_form "nan") = Return "nan" ∧
  CPython.float_of_str "nan" = Some nan ∧
  ∃ resp : Response,
    full_dispatch_request (H := CPython.builtins)
      (POST_predict (Samples.income_form "nan")) Samples.housing
      = (Return resp, Samples.housing) ∧
    context (body resp) !! "prediction" = None ∧
    context (body resp) !! "error" = Some (VStr "Input X contains NaN.").
Proof.
  split; [reflexivity|]. split; [reflexivity|].
  eexists. split; [reflexivity|]. split; reflexivity.
Qed.

Lemma predict_success_witness :
  form_getitem "income" (Samples.income_form "8.5") = Return "8.5" ∧
  CPython.float_of_str "8.5" = Some 8.5%float ∧
  Predictor.predict (model Samples.housing) [[8.5%float]] = Return [20%float] ∧
  ∃ resp : Response,
    full_dispatch_request (H := CPython.builtins)
      (POST_predict (Samples.income_form "8.5")) Samples.housing
      = (Return resp, Samples.housing) ∧
    status resp = 200%Z ∧
    template (body resp) = "index.html" ∧
    context (body resp) !! "prediction" = Some (VFloat 20) ∧
    context (body resp) !! "income" = Some (VFloat 8.5) ∧
    context (body resp) !! "error" = None.
Proof.
  split; [reflexivity|]. split; [reflexivity|]. split; [reflexivity|].
  apply (predict_success (B := CPython.builtins) (Samples.income_form "8.5")
           Samples.housing "8.5" 8.5 20 []); reflexivity.
Defined.

Lemma predict_unparsable_witness :
  form_getitem "income" (Samples.income_form "abc") = Return "abc" ∧
  CPython.float_of_str "abc" = None ∧
  ∃ (resp : Response) (msg : string),
    full_dispatch_request (H := CPython.builtins)
      (POST_predict (Samples.income_form "abc")) Samples.housing
      = (Return resp, Samples.housing) ∧
    status resp = 200%Z ∧
    template (body resp) = "index.html" ∧
    context (body resp) !! "error" = Some (VStr msg) ∧
    msg ≠ "" ∧
    context (body resp) !! "prediction" = None.
Proof.
  split; [reflexivity|]. split; [reflexivity|].
  apply (predict_unparsable (B := CPython.builtins) (Samples.income_form "abc")
           Samples.housing "abc"); reflexivity.
Defined.

Lemma predict_failure_is_caught_witness :
  (form_getitem "income" (Samples.income_form "1e999") = Return "1e999" ∧
   CPython.float_of_str "1e999" = Some infinity ∧
   Predictor.predict (model Samples.housing) [[infinity]]
   = Raise (ValueError "Input X contains infinity or a value too large for dtype('float64').")) ∧
  (full_dispatch_request (H := CPython.builtins)
     (POST_predict (Samples.income_form "1e999")) Samples.housing
   = (Return (MkResponse 200 (MkView "index.html"
        {["error" :=
            VStr "Input X contains infinity or a value too large for dtype('float64')."]})),
      Samples.housing) ∧
   serve (H := CPython.builtins)
     [POST_predict (Samples.income_form "1e999"); GET_root] Samples.housing
   = (Return (MkResponse 200 (MkView "index.html"
        {["error" :=
            VStr "Input X contains infinity or a value too large for dtype('float64')."]}))
        :: (serve (H := CPython.builtins) [GET_root] Samples.housing).1,
      Samples.housing)) ∧
  (form_getitem "income" (Samples.income_form "abc") = Return "abc" ∧
   CPython.float_of_str "abc" = None) ∧
  full_dispatch_request (H := CPython.builtins)
    (POST_predict (Samples.income_form "abc")) Samples.housing
  = (Return (MkResponse 200 (MkView "index.html"
       {["error" := VStr "could not convert string to float: 'abc'"]})),
     Samples.housing).
Proof.
  split; [repeat split; reflexivity|]. split.
  - apply (predict_failure_is_caught (B := CPython.builtins) (Samples.income_form "1e999")
             Samples.housing [GET_root]).
    right. exists "1e999", infinity,
      (ValueError "Input X contains infinity or a value too large for dtype('float64').").
    repeat split; reflexivity.
  - split; [split; reflexivity|].
    apply (predict_failure_is_caught (B := CPython.builtins) (Samples.income_form "abc")
             Samples.housing []).
    left. exists "abc". repeat split; reflexivity.
Defined.

(** C3 as first stated fails: an object outside the [Exception]
    hierarchy that the predictor raises, here a [KeyboardInterrupt], is
    not caught by line 18; the request gets no response. *)
Lemma predict_keyboard_interrupt_propagates :
  form_getitem "income" (Samples.income_form "3") = Return "3" ∧
  CPython.float_of_str "3" = Some 3%float ∧
  Predictor.predict (Samples.raising (NonException "KeyboardInterrupt" "")) [[3%float]]
  = Raise (NonException "KeyboardInterrupt" "") ∧
  full_dispatch_request (H := CPython.builtins) (POST_predict (Samples.income_form "3"))
    (Globals (Samples.raising (NonException "KeyboardInterrupt" "")))
  = (Raise (NonException "KeyboardInterrupt" ""),
     Globals (Samples.raising (NonException "KeyboardInterrupt" ""))) ∧
  ¬ ∃ resp : Response,
      (full_dispatch_request (H := CPython.builtins)
         (POST_predict (Samples.income_form "3"))
         (Globals (Samples.raising (NonException "KeyboardInterrupt" "")))).1
      = Return resp.
Proof.
  split; [reflexivity|]. split; [reflexivity|]. split; [reflexivity|].
  split; [reflexivity|]. intros [resp Hresp]. vm_compute in Hresp. discriminate Hresp.
Qed.

Lemma predict_missing_income_witness :
  ({["zipcode" := ["90210"]]} : Form) !! "income" = None ∧
  ∃ (resp : Response) (msg : string),
    full_dispatch_request (H := CPython.builtins)
      (POST_predict {["zipcode" := ["90210"]]}) Samples.housing
      = (Return resp, Samples.housing) ∧
    status resp = 200%Z ∧
    template (body resp) = "index.html" ∧
    context (body resp) = {["error" := VStr msg]} ∧
    msg ≠ "".
Proof.
  split; [reflexivity|].
  apply (predict_missing_income (B := CPython.builtins) {["zipcode" := ["90210"]]}
           Samples.housing); reflexivity.
Defined.

Lemma load_failure_is_fatal_witness :
  Samples.load_missing "slr_model.pkl"
  = Raise (OtherException "FileNotFoundError" "[Errno 2] No such file or directory") ∧
  load_module Samples.load_missing
  = Raise (OtherException "FileNotFoundError" "[Errno 2] No such file or directory") ∧
  run (H := CPython.builtins) Samples.load_missing
    [GET_root; POST_predict (Samples.income_form "8.5")]
  = Raise (OtherException "FileNotFoundError" "[Errno 2] No such file or directory").
Proof.
  split; [reflexivity|].
  apply (load_failure_is_fatal (B := CPython.builtins) Samples.load_missing); reflexivity.
Defined.

Lemma predict_forwards_income_witness :
  form_getitem "income" (Samples.income_form "-inf") = Return "-inf" ∧
  CPython.float_of_str "-inf" = Some neg_infinity ∧
  predict (H := CPython.builtins) (Samples.income_form "-inf") (Globals Samples.echo)
  = (Return (MkView "index.html"
               (<["prediction" := VFloat neg_infinity]>
                  (<["income" := VFloat neg_infinity]> ∅))),
     Globals Samples.echo).
Proof.
  split; [reflexivity|]. split; [reflexivity|].
  apply (predict_forwards_income (B := CPython.builtins) (Samples.income_form "-inf")
           (Globals Samples.echo) "-inf" neg_infinity); reflexivity.
Defined.

Lemma predict_failure_shows_error_only_witness :
  form_getitem "income" (Samples.income_form "7") = Return "7" ∧
  CPython.float_of_str "7" = Some 7%float ∧
  ∃ resp : Response,
    full_dispatch_request (H := CPython.builtins)
      (POST_predict (Samples.income_form "7"))
      (Globals (Samples.raising (OtherException "RuntimeError" "model is broken")))
      = (Return resp, Globals (Samples.raising (OtherException "RuntimeError" "model is broken"))) ∧
    context (body resp) = {["error" := VStr "model is broken"]} ∧
    context (body resp) !! "income" = None ∧
    context (body resp) !! "prediction" = None.
Proof.
  split; [reflexivity|]. split; [reflexivity|].
  apply (predict_failure_shows_error_only (B := CPython.builtins) (Samples.income_form "7")
           (Globals (Samples.raising (OtherException "RuntimeError" "model is broken")))
           "7" 7 (OtherException "RuntimeError" "model is broken")); reflexivity.
Defined.

Lemma predict_reads_income_only_witness :
  (<["rooms" := ["6"]]> (Samples.income_form "8.5") : Form) !! "income"
  = (<["age" := ["41"; "52"]]> (Samples.income_form "8.5") : Form) !! "income" ∧
  full_dispatch_request (H := CPython.builtins)
    (POST_predict (<["rooms" := ["6"]]> (Samples.income_form "8.5"))) Samples.housing
  = full_dispatch_request (H := CPython.builtins)
      (POST_predict (<["age" := ["41"; "52"]]> (Samples.income_form "8.5"))) Samples.housing.
Proof.
  split; [reflexivity|].
  apply (predict_reads_income_only (B := CPython.builtins)); reflexivity.
Defined.

(** The end-to-end scenario of the specification: [income=50000] comes
    back as the float 50000.0 next to the prediction. *)
Example post_income_50000 :
  full_dispatch_request (H := CPython.builtins)
    (POST_predict (Samples.income_form "50000")) Samples.housing
  = (Return (MkResponse 200
       (MkView "index.html"
          (<["prediction" := VFloat 100003]> (<["income" := VFloat 50000]> ∅)))),
     Samples.housing).
Proof. reflexivity. Qed.

(** The second scenario: [income=not-a-number]. *)
Example post_income_not_a_number :
  full_dispatch_request (H := CPython.builtins)
    (POST_predict (Samples.income_form "not-a-number")) Samples.housing
  = (Return (MkResponse 200
       (MkView "index.html"
          (<["error" := VStr "could not convert string to float: 'not-a-number'"]> ∅))),
     Samples.housing).
Proof. reflexivity. Qed.

(** X2: What [except Exception] does not catch leaves the view function:
    the hypothesis on the class of the raised object, in the theorems on
    a raising predictor, cannot be dropped. *)
Lemma predict_lets_non_exceptions_escape `{B : Builtins} (form : Form) (g : globals)
    (s : string) (v : float) (e : exn) :
  form_getitem "income" form = Return s →
  float_of_str s = Some v →
  Predictor.predict (model g) [[v]] = Raise e →
  isinstance_Exception e = false →
  full_dispatch_request (POST_predict form) g = (Raise e, g).
Proof.
  intros Hs Hv Hp He. rewrite post_predict_unfold, predict_unfold, Hs. simpl.
  unfold py_float. rewrite Hv. simpl. rewrite Hp. simpl. by rewrite He.
Qed.

(** * Further properties of the handlers *)

Section Handlers.
Context `{B : Builtins}.

(** X1: Whatever the form and the predictor, an answer to POST /predict is a
    200 rendering of [index.html] whose context has either exactly the
    two keys [prediction] and [income], the income being the float the
    field parsed to, or the key [error] alone with a text; a page never
    shows a prediction next to an error.  What is not answered is an
    object outside the [Exception] hierarchy, passed on. *)
Theorem predict_response_shape (form : Form) (g : globals) :
  match (full_dispatch_request (POST_predict form) g).1 with
  | Return resp =>
      status resp = 200%Z ∧
      template (body resp) = "index.html" ∧
      ((∃ (s : string) (v : float),
          form_getitem "income" form = Return s ∧ float_of_str s = Some v ∧
          context (body resp) !! "income" = Some (VFloat v) ∧
          dom (context (body resp)) = ({["prediction"; "income"]} : gset string)) ∨
       (∃ msg : string, context (body resp) = {["error" := VStr msg]})) ∧
      (is_Some (context (body resp) !! "prediction") →
       context (body resp) !! "error" = None)
  | Raise e => isinstance_Exception e = false
  end.
Proof.
  rewrite post_predict_unfold, predict_unfold. simpl.
  assert (∀ e, match make_response <$> settle (Raise e) with
               | Return resp =>
                   status resp = 200%Z ∧ template (body resp) = "index.html" ∧
                   ((∃ (s : string) (v : float),
                       form_getitem "income" form = Return s ∧ float_of_str s = Some v ∧
                       context (body resp) !! "income" = Some (VFloat v) ∧
                       dom (context (body resp))
                       = ({["prediction"; "income"]} : gset string)) ∨
                    (∃ msg : string, context (body resp) = {["error" := VStr msg]})) ∧
                   (is_Some (context (body resp) !! "prediction") →
                    context (body resp) !! "error" = None)
               | Raise e' => isinstance_Exception e' = false
               end) as Herr.
  { intros e. simpl. destruct (isinstance_Exception e) eqn:He; simpl; [|done].
    repeat split; [right; eexists; by rewrite insert_empty|].
    intros [x Hx]. by rewrite lookup_insert_ne, lookup_empty in Hx. }
  destruct (form_getitem "income" form) as [s|e] eqn:Hs; [|apply Herr]. simpl.
  unfold py_float. destruct (float_of_str s) as [v|] eqn:Hv; [|apply Herr]. simpl.
  destruct (Predictor.predict (model g) [[v]]) as [ys|e]; [|apply Herr]. simpl.
  destruct (ndarray_getitem ys 0) as [p|e]; [|apply Herr]. simpl.
  split; [done|]. split; [done|]. split; [|done].
  left. exists s, v. split; [done|]. split; [done|]. split; [done|].
  rewrite !dom_insert_L, dom_empty_L. set_solver.
Qed.

(** X3: When the predictor returns an empty array, the index [[0]] of line
    16 is out of bounds: the answer is the error page, with neither the
    income nor a prediction. *)
Theorem predict_empty_result (form : Form) (g : globals) (s : string) (v : float) :
  form_getitem "income" form = Return s →
  float_of_str s = Some v →
  Predictor.predict (model g) [[v]] = Return [] →
  ∃ (resp : Response) (msg : string),
    full_dispatch_request (POST_predict form) g = (Return resp, g) ∧
    status resp = 200%Z ∧
    context (body resp) = {["error" := VStr msg]} ∧
    msg ≠ "" ∧
    context (body resp) !! "income" = None ∧
    context (body resp) !! "prediction" = None.
Proof.
  intros Hs Hv Hp. rewrite post_predict_unfold, predict_unfold, Hs. simpl.
  unfold py_float. rewrite Hv. simpl. rewrite Hp. simpl.
  eexists _, _. split; [reflexivity|]. simpl. by rewrite insert_empty.
Qed.

(** X4: A form that carries several values under [income] is answered as a
    form that carries only the first of them. *)
Theorem predict_uses_first_income_value (form : Form) (g : globals)
    (s : string) (more : list string) :
  form !! "income" = Some (s :: more) →
  full_dispatch_request (POST_predict form) g
  = full_dispatch_request (POST_predict {["income" := [s]]}) g.
Proof.
  intros Hf. rewrite !post_predict_unfold, !predict_unfold.
  unfold form_getitem. by rewrite Hf, lookup_singleton_eq.
Qed.

(** X5: Only the number counts, not its spelling: two forms whose [income]
    texts parse to the same float get the same answer. *)
Theorem predict_depends_on_parsed_value (f1 f2 : Form) (g : globals)
    (s1 s2 : string) (v : float) :
  form_getitem "income" f1 = Return s1 →
  form_getitem "income" f2 = Return s2 →
  float_of_str s1 = Some v →
  float_of_str s2 = Some v →
  full_dispatch_request (POST_predict f1) g = full_dispatch_request (POST_predict f2) g.
Proof.
  intros H1 H2 Hv1 Hv2. rewrite !post_predict_unfold, !predict_unfold, H1, H2. simpl.
  unfold py_float. by rewrite Hv1, Hv2.
Qed.

(** X6: When the [income] field is missing or does not parse, the predictor
    is not called: the answer is the same whatever [model] is bound to. *)
Theorem predict_bad_input_skips_predictor (form : Form) (g1 g2 : globals) :
  form !! "income" = None ∨
  (∃ s, form_getitem "income" form = Return s ∧ float_of_str s = None) →
  (full_dispatch_request (POST_predict form) g1).1
  = (full_dispatch_request (POST_predict form) g2).1.
Proof.
  intros H. rewrite !post_predict_unfold, !predict_unfold. simpl.
  destruct H as [Hm|(s & Hs & Hv)].
  - unfold form_getitem. by rewrite Hm.
  - rewrite Hs. simpl. unfold py_float. by rewrite Hv.
Qed.

(** X7: The predictor is asked about the one row [[v]] and nothing else: two
    predictors that agree there get the same answer to the request. *)
Theorem predict_consults_one_point (form : Form) (m1 m2 : Predictor.t)
    (s : string) (v : float) :
  form_getitem "income" form = Return s →
  float_of_str s = Some v →
  Predictor.predict m1 [[v]] = Predictor.predict m2 [[v]] →
  (full_dispatch_request (POST_predict form) (Globals m1)).1
  = (full_dispatch_request (POST_predict form) (Globals m2)).1.
Proof.
  intros Hs Hv Hm. rewrite !post_predict_unfold, !predict_unfold, Hs. simpl.
  unfold py_float. rewrite Hv. simpl. by rewrite Hm.
Qed.

(** X8: With a predictor that raises nothing but instances of [Exception],
    the server answers every request of every sequence with a 200 page. *)
Theorem serve_always_answers (reqs : list Request) (g : globals) :
  (∀ X e, Predictor.predict (model g) X = Raise e → isinstance_Exception e = true) →
  Forall (λ o, ∃ resp : Response, o = Return resp ∧ status resp = 200%Z)
         (serve reqs g).1.
Proof.
  intros Hm. rewrite serve_pointwise. simpl. apply Forall_fmap, Forall_forall.
  intros r _. simpl. destruct r as [|form]; [by eexists|].
  rewrite post_predict_unfold, predict_unfold. simpl.
  unfold form_getitem.
  destruct (form !! "income") as [[|s more]|]; simpl; [by eexists| |by eexists].
  unfold py_float. destruct (float_of_str s) as [v|]; simpl; [|by eexists].
  destruct (Predictor.predict (model g) [[v]]) as [[|p ys]|e] eqn:Hp; simpl;
    [by eexists|by eexists|].
  rewrite (Hm _ _ Hp). by eexists.
Qed.

(** X9: A GET is answered without the predictor: whatever rule it matched
    and whatever form data it carries, the answer is the same for every
    binding of [model], and it is the bare form or a 405. *)
Theorem get_never_predicts (q : HttpRequest) (g : globals) :
  http_method q = GET →
  handle_request q g
  = (Return (match http_rule q with
             | rule_home => Rendered (MkResponse 200 (MkView "index.html" ∅))
             | rule_predict => MethodNotAllowed [POST]
             end), g).
Proof.
  intros Hq. destruct q as [r m form]. simpl in Hq. subst m.
  destruct r; reflexivity.
Qed.

(** X10: A page that shows anything (a prediction or an error) is the answer
    to a POST that matched the rule of [/predict]. *)
Theorem filled_page_comes_from_post_predict (q : HttpRequest) (g : globals)
    (resp : Response) :
  (handle_request q g).1 = Return (Rendered resp) →
  context (body resp) ≠ ∅ →
  http_rule q = rule_predict ∧ http_method q = POST.
Proof.
  unfold handle_request. destruct q as [[] [] form]; simpl;
    unfold mbind, mret, M_mbind, M_mret, M_bind, M_ret;
    rewrite ?full_dispatch_unfold; simpl; try done.
  intros [= <-]. done.
Qed.

End Handlers.

(** Instances of the further properties, with CPython's builtins. *)

Lemma predict_lets_non_exceptions_escape_witness :
  form_getitem "income" (Samples.income_form "3") = Return "3" ∧
  CPython.float_of_str "3" = Some 3%float ∧
  full_dispatch_request (H := CPython.builtins) (POST_predict (Samples.income_form "3"))
    (Globals (Samples.raising (NonException "SystemExit" "1")))
  = (Raise (NonException "SystemExit" "1"),
     Globals (Samples.raising (NonException "SystemExit" "1"))).
Proof.
  split; [reflexivity|]. split; [reflexivity|].
  apply (predict_lets_non_exceptions_escape (B := CPython.builtins)
           (Samples.income_form "3")
           (Globals (Samples.raising (NonException "SystemExit" "1"))) "3" 3);
    reflexivity.
Defined.

Lemma predict_empty_result_witness :
  form_getitem "income" (Samples.income_form "3") = Return "3" ∧
  CPython.float_of_str "3" = Some 3%float ∧
  Predictor.predict Samples.silent [[3%float]] = Return [] ∧
  ∃ (resp : Response) (msg : string),
    full_dispatch_request (H := CPython.builtins)
      (POST_predict (Samples.income_form "3")) (Globals Samples.silent)
      = (Return resp, Globals Samples.silent) ∧
    status resp = 200%Z ∧
    context (body resp) = {["error" := VStr msg]} ∧
    msg ≠ "" ∧
    context (body resp) !! "income" = None ∧
    context (body resp) !! "prediction" = None.
Proof.
  split; [reflexivity|]. split; [reflexivity|]. split; [reflexivity|].
  apply (predict_empty_result (B := CPython.builtins) (Samples.income_form "3")
           (Globals Samples.silent) "3" 3); reflexivity.
Defined.

Lemma predict_uses_first_income_value_witness :
  ({["income" := ["8.5"; "abc"]]} : Form) !! "income" = Some ["8.5"; "abc"] ∧
  full_dispatch_request (H := CPython.builtins)
    (POST_predict {["income" := ["8.5"; "abc"]]}) Samples.housing
  = full_dispatch_request (H := CPython.builtins)
      (POST_predict {["income" := ["8.5"]]}) Samples.housing.
Proof.
  split; [reflexivity|].
  apply (predict_uses_first_income_value (B := CPython.builtins)
           {["income" := ["8.5"; "abc"]]} Samples.housing "8.5" ["abc"]); reflexivity.
Defined.

Lemma predict_depends_on_parsed_value_witness :
  CPython.float_of_str "50000" = Some 50000%float ∧
  CPython.float_of_str " 5_0e3 " = Some 50000%float ∧
  full_dispatch_request (H := CPython.builtins)
    (POST_predict (Samples.income_form "50000")) Samples.housing
  = full_dispatch_request (H := CPython.builtins)
      (POST_predict (Samples.income_form " 5_0e3 ")) Samples.housing.
Proof.
  split; [reflexivity|]. split; [reflexivity|].
  apply (predict_depends_on_parsed_value (B := CPython.builtins)
           (Samples.income_form "50000") (Samples.income_form " 5_0e3 ")
           Samples.housing "50000" " 5_0e3 " 50000); reflexivity.
Defined.

Lemma predict_bad_input_skips_predictor_witness :
  (form_getitem "income" (Samples.income_form "1,5") = Return "1,5" ∧
   CPython.float_of_str "1,5" = None) ∧
  (full_dispatch_request (H := CPython.builtins)
     (POST_predict (Samples.income_form "1,5")) Samples.housing).1
  = (full_dispatch_request (H := CPython.builtins)
       (POST_predict (Samples.income_form "1,5")) (Globals Samples.silent)).1.
Proof.
  split; [split; reflexivity|].
  apply (predict_bad_input_skips_predictor (B := CPython.builtins)
           (Samples.income_form "1,5") Samples.housing (Globals Samples.silent)).
  right. exists "1,5". split; reflexivity.
Defined.

Lemma predict_consults_one_point_witness :
  Predictor.predict (Samples.linear_regression 2 3) [[0%float]]
  = Predictor.predict (Samples.linear_regression 5 3) [[0%float]] ∧
  (full_dispatch_request (H := CPython.builtins)
     (POST_predict (Samples.income_form "0")) (Globals (Samples.linear_regression 2 3))).1
  = (full_dispatch_request (H := CPython.builtins)
       (POST_predict (Samples.income_form "0")) (Globals (Samples.linear_regression 5 3))).1.
Proof.
  split; [reflexivity|].
  apply (predict_consults_one_point (B := CPython.builtins) (Samples.income_form "0")
           (Samples.linear_regression 2 3) (Samples.linear_regression 5 3) "0" 0);
    reflexivity.
Defined.

Lemma serve_always_answers_witness :
  Forall (λ o, ∃ resp : Response, o = Return resp ∧ status resp = 200%Z)
    (serve (H := CPython.builtins)
       [POST_predict (Samples.income_form "abc"); GET_root;
        POST_predict ∅; POST_predict (Samples.income_form "7")]
       (Globals (Samples.raising (OtherException "RuntimeError" "model is broken")))).1.
Proof.
  apply (serve_always_answers (B := CPython.builtins)).
  simpl. intros X e [= <-]. reflexivity.
Defined.

Lemma get_never_predicts_witness :
  handle_request (H := CPython.builtins)
    (MkHttpRequest rule_predict GET (Samples.income_form "8.5")) Samples.housing
  = (Return (MethodNotAllowed [POST]), Samples.housing).
Proof.
  apply (get_never_predicts (B := CPython.builtins)
           (MkHttpRequest rule_predict GET (Samples.income_form "8.5")) Samples.housing).
  reflexivity.
Defined.

Lemma filled_page_comes_from_post_predict_witness :
  http_rule (MkHttpRequest rule_predict POST (Samples.income_form "abc")) = rule_predict ∧
  http_method (MkHttpRequest rule_predict POST (Samples.income_form "abc")) = POST.
Proof.
  apply (filled_page_comes_from_post_predict (B := CPython.builtins)
           (MkHttpRequest rule_predict POST (Samples.income_form "abc")) Samples.housing
           (MkResponse 200 (MkView "index.html"
              (<["error" := VStr "could not convert string to float: 'abc'"]> ∅)))).
  - reflexivity.
  - intros Habs. apply (f_equal (λ m : gmap string value, m !! "error")) in Habs.
    vm_compute in Habs. discriminate Habs.
Defined.
